(** * Vehicle-Insurance: configuration constants and the CustomException helper

    A shallow embedding of [constants/__init__.py] and
    [src/exception/__init__.py], with the properties of the specification
    stated and proved (or refuted) on it. *)

From Stdlib Require Import ZArith Lia String Ascii List.
From stdpp Require Import base option strings gmap pretty.

Local Open Scope Z_scope.
Local Open Scope string_scope.

(** ** The fragment of the Python runtime both modules use *)

Module Py.

(** Exceptions a call can raise.  [ValueError] and [TypeError] are the two
    the builtin [int] raises; [Raised name] stands for any exception coming
    from a collaborator (a logging handler, an object's [__str__]). *)
Inductive exn : Type :=
| ValueError
| TypeError
| Raised (name : string).

(** The outcome of a call: an exception or a value. *)
Definition result (A : Type) : Type := (exn + A)%type.

(** Python values that reach the two modules.  [VObj r] is any other object,
    represented by what its [__str__] method does: return a text or raise. *)
Inductive value : Type :=
| VStr (s : string)
| VInt (z : Z)
| VBool (b : bool)
| VNone
| VObj (str_outcome : result string).

(** [str(v)]. *)
Definition str (v : value) : result string :=
  match v with
  | VStr s => inr s
  | VInt z => inr (pretty z)
  | VBool true => inr "True"
  | VBool false => inr "False"
  | VNone => inr "None"
  | VObj r => r
  end.

(** [int(v)], given what the builtin does on a text ([None]: the text is not
    an integer literal and [ValueError] is raised).  An object that only
    defines [__str__] and [None] are rejected with [TypeError]. *)
Definition int (int_of_str : string -> option Z) (v : value) : result Z :=
  match v with
  | VStr s => match int_of_str s with Some z => inr z | None => inl ValueError end
  | VInt z => inr z
  | VBool b => inr (if b then 1 else 0)
  | VNone => inl TypeError
  | VObj _ => inl TypeError
  end.

(** [os.getenv(key, default)] over the mapping [os.environ]. *)
Definition os_getenv (environ : gmap string string) (key : string)
    (default : value) : value :=
  match environ !! key with
  | Some s => VStr s
  | None => default
  end.

(** A plain decimal reading of a text, used to instantiate [int] on
    examples: an optional sign followed by one or more ASCII digits.  It is
    narrower than the builtin, which also takes surrounding whitespace,
    underscores between digits and other decimal digits; the theorems are
    stated for every [int_of_str] and do not depend on it. *)
Definition digit_of (c : ascii) : option Z :=
  let n := Z.of_nat (nat_of_ascii c) in
  if ((48 <=? n) && (n <=? 57))%Z then Some (n - 48)%Z else None.

Fixpoint digits_from (acc : Z) (s : string) : option Z :=
  match s with
  | EmptyString => Some acc
  | String c s' =>
      match digit_of c with
      | Some d => digits_from (10 * acc + d)%Z s'
      | None => None
      end
  end.

Definition unsigned_decimal (s : string) : option Z :=
  match s with
  | EmptyString => None
  | _ => digits_from 0 s
  end.

Definition decimal_int (s : string) : option Z :=
  match s with
  | String "-"%char s' => Z.opp <$> unsigned_decimal s'
  | String "+"%char s' => unsigned_decimal s'
  | _ => unsigned_decimal s
  end.

End Py.

(** ** [src/exception/__init__.py] *)

Module exception.
Import Py.

(** What [sys.exc_info()[2]] exposes to the code: a traceback whose frame
    names its code object's file, and the line number. *)
Record code := { co_filename : string }.
Record frame := { f_code : code }.
Record traceback := { tb_frame : frame; tb_lineno : Z }.

(** The object passed as [error_detail]: anything with an [exc_info()]
    returning the triple (type, value, traceback); the first two components
    are never looked at, so they are kept as plain values. *)
Record sys_module := { exc_info : value * value * option traceback }.

(** The logging side: severities and the records handed to the sink. *)
Inductive level := DEBUG | INFO | WARNING | ERROR | CRITICAL.

Definition log_record : Type := (level * string)%type.

(** A computation that may raise and that appends to the records the sink
    has received. *)
Definition M (A : Type) : Type := list log_record -> result (A * list log_record).

Definition ret {A} (a : A) : M A := fun l => inr (a, l).

Definition bind {A B} (m : M A) (k : A -> M B) : M B :=
  fun l => match m l with
           | inl e => inl e
           | inr (a, l') => k a l'
           end.

Definition lift {A} (r : result A) : M A :=
  fun l => match r with inl e => inl e | inr a => inr (a, l) end.

Notation "x <- m ;; k" := (bind m (fun x => k))
  (at level 100, m at next level, right associativity).
Notation "m ;;; k" := (bind m (fun _ => k))
  (at level 100, right associativity).

(** [CustomException] instances: the argument tuple kept by the base
    [Exception] and the attribute set by [__init__]. *)
Record CustomException := { args : list value; error_message : string }.

Section Annotator.

(** The sink behind [logging.error]: [Some e] when handing it the record
    raises [e]. *)
Variable sink : log_record -> option exn.

(** The module [sys] the class's default argument is bound to. *)
Variable sys : sys_module.

(** [logging.error(msg)]. *)
Definition logging_error (msg : string) : M unit :=
  fun l => match sink (ERROR, msg) with
           | Some e => inl e
           | None => inr (tt, (l ++ [(ERROR, msg)])%list)
           end.

Definition error_message_detail (error : value) (error_detail : sys_module)
    : M string :=
  let '(_, _, exc_tb) := exc_info error_detail in
  match exc_tb with
  | None => lift (str error)
  | Some exc_tb =>
      let file_name := co_filename (f_code (tb_frame exc_tb)) in
      let line_number := tb_lineno exc_tb in
      s <- lift (str error) ;;
      let error_message :=
        "Error occurred in python script: [" +:+ file_name
          +:+ "] at line number [" +:+ pretty line_number
          +:+ "]: " +:+ s in
      logging_error error_message ;;;
      ret error_message
  end.

(** [CustomException.__init__]; [error_detail = None] is the call that
    leaves the default argument [sys] in place. *)
Definition CustomException_init (error_message : value)
    (error_detail : option sys_module) : M CustomException :=
  let error_detail := default sys error_detail in
  error_message <- lift (str error_message) ;;
  let base_args := [VStr error_message] in
  detail <- error_message_detail (VStr error_message) error_detail ;;
  ret {| args := base_args; error_message := detail |}.

(** [CustomException.__str__]. *)
Definition CustomException_str (self : CustomException) : string :=
  error_message self.

End Annotator.

(** Providers used in the statements: one with no active trace, one whose
    most recent frame is [(file, line)]. *)
Definition no_trace : sys_module := {| exc_info := (VNone, VNone, None) |}.

Definition trace_at (file : string) (line : Z) : sys_module :=
  {| exc_info :=
       (VNone, VNone,
        Some {| tb_frame := {| f_code := {| co_filename := file |} |};
                tb_lineno := line |}) |}.

(** A sink that accepts every record, and one that raises on every record. *)
Definition accepting : log_record -> option exn := fun _ => None.
Definition broken : log_record -> option exn := fun _ => Some (Raised "OSError").

(** The location [error_message_detail] reads off a provider, when a trace
    is active. *)
Definition sourceLocation (error_detail : sys_module) : option (string * Z) :=
  let '(_, _, exc_tb) := exc_info error_detail in
  (fun tb => (co_filename (f_code (tb_frame tb)), tb_lineno tb)) <$> exc_tb.

(** The message as a function of the original text and the location alone. *)
Definition formattedMessage (originalMessage : string)
    (location : option (string * Z)) : string :=
  match location with
  | None => originalMessage
  | Some (file, line) =>
      "Error occurred in python script: [" +:+ file
        +:+ "] at line number [" +:+ pretty line
        +:+ "]: " +:+ originalMessage
  end.

(** The text form of the object a run returned, if it returned one. *)
Definition text_of (r : result (CustomException * list log_record))
    : option string :=
  match r with
  | inl _ => None
  | inr (e, _) => Some (CustomException_str e)
  end.

(** A [CustomException] handed on as a value: [str] on it is answered by the
    class's [__str__]. *)
Definition CustomException_value (e : CustomException) : value :=
  VObj (inr (CustomException_str e)).

End exception.

(** ** [constants/__init__.py] *)

Module constants.
Import Py.

(** The names the module binds when it is imported. *)
Record config := {
  MONGODB_URL : value;
  AWS_ACCESS_KEY_ID : value;
  AWS_SECRET_ACCESS_KEY : value;
  APP_HOST : value;
  APP_PORT : Z
}.

Section Loader.

(** What [load_dotenv()] does to [os.environ], and what the builtin [int]
    does on a text: both belong to the environment of the module. *)
Variable load_dotenv : gmap string string -> gmap string string.
Variable int_of_str : string -> option Z.

(** Importing the module: the statements of the file in order. *)
Definition import_constants (environ : gmap string string) : result config :=
  let environ := load_dotenv environ in
  let mongodb_url := os_getenv environ "MONGODB_URLX" VNone in
  let aws_access_key_id := os_getenv environ "AWS_ACCESS_KEY_ID" VNone in
  let aws_secret_access_key := os_getenv environ "AWS_SECRET_ACCESS_KEY" VNone in
  let app_host := os_getenv environ "APP_HOST" (VStr "0.0.0.0") in
  match int int_of_str (os_getenv environ "APP_PORT" (VInt 5000)) with
  | inl e => inl e
  | inr app_port =>
      inr {| MONGODB_URL := mongodb_url;
             AWS_ACCESS_KEY_ID := aws_access_key_id;
             AWS_SECRET_ACCESS_KEY := aws_secret_access_key;
             APP_HOST := app_host;
             APP_PORT := app_port |}
  end.

End Loader.

(** A [load_dotenv] for the examples: the entries of the [.env] file are
    added to the environment, variables already set keep their value. *)
Definition dotenv_adds (dotenv : gmap string string)
    : gmap string string -> gmap string string :=
  fun environ => environ ∪ dotenv.

End constants.

Import Py exception.

(** ** Evaluating the code on small inputs *)

Example run_trace :
  CustomException_init accepting no_trace (VStr "boom") (Some (trace_at "a.txt" 42)) []
  = inr ({| args := [VStr "boom"];
            error_message := "Error occurred in python script: [a.txt] at line number [42]: boom" |},
         [(ERROR, "Error occurred in python script: [a.txt] at line number [42]: boom")]).
Proof. vm_compute. reflexivity. Qed.

Example run_no_trace :
  CustomException_init broken no_trace (VInt 7) None []
  = inr ({| args := [VStr "7"]; error_message := "7" |}, []).
Proof. vm_compute. reflexivity. Qed.

Example run_default_sys :
  text_of (CustomException_init accepting (trace_at "m.py" 3) VNone None [])
  = Some "Error occurred in python script: [m.py] at line number [3]: None".
Proof. vm_compute. reflexivity. Qed.

Example run_str_raises :
  CustomException_init accepting no_trace (VObj (inl (Raised "RuntimeError"))) None []
  = inl (Raised "RuntimeError").
Proof. reflexivity. Qed.

(** ** How a run of [CustomException_init] unfolds *)

Section Unfolding.

Variable sink : log_record -> option exn.
Variable sys : sys_module.

Lemma length_append (a b : string) :
  String.length (a +:+ b) = (String.length a + String.length b)%nat.
Proof.
  induction a as [|c a IH]; [reflexivity|].
  change (String c a +:+ b) with (String c (a +:+ b)).
  cbn [String.length]. rewrite IH. reflexivity.
Qed.

(** A text is its own [str]. *)
Lemma detail_of_text (s : string) (ed : sys_module) (l : list log_record) :
  error_message_detail sink (VStr s) ed l =
    match sourceLocation ed with
    | None => inr (s, l)
    | Some loc =>
        match sink (ERROR, formattedMessage s (Some loc)) with
        | Some ex => inl ex
        | None =>
            inr (formattedMessage s (Some loc),
                 (l ++ [(ERROR, formattedMessage s (Some loc))])%list)
        end
    end.
Proof.
  unfold error_message_detail, sourceLocation.
  destruct (exc_info ed) as [[t v] [tb|]]; cbn; [|reflexivity].
  unfold bind, lift, logging_error, ret; cbn.
  destruct (sink _); reflexivity.
Qed.

(** The three ways a construction can end: [str] raises, no trace is
    active, or a trace is active and the sink decides. *)
Lemma init_unfold (v : value) (error_detail : option sys_module)
    (l : list log_record) :
  CustomException_init sink sys v error_detail l =
    match str v with
    | inl ex => inl ex
    | inr s =>
        match error_message_detail sink (VStr s) (default sys error_detail) l with
        | inl ex => inl ex
        | inr (detail, l') =>
            inr ({| args := [VStr s]; error_message := detail |}, l')
        end
    end.
Proof.
  unfold CustomException_init, bind, lift, ret.
  destruct (str v) as [ex|s]; [reflexivity|].
  destruct (error_message_detail _ _ _ _) as [ex|[detail l']]; reflexivity.
Qed.

Lemma init_returns (v : value) (error_detail : option sys_module)
    (l l' : list log_record) (e : CustomException) :
  CustomException_init sink sys v error_detail l = inr (e, l') ->
  exists s,
    str v = inr s /\
    args e = [VStr s] /\
    error_message e = formattedMessage s (sourceLocation (default sys error_detail)) /\
    error_message_detail sink (VStr s) (default sys error_detail) l
      = inr (error_message e, l').
Proof.
  rewrite init_unfold. destruct (str v) as [ex|s]; [discriminate|].
  destruct (error_message_detail _ _ _ _) as [ex|[detail l'']] eqn:Hd;
    [discriminate|].
  intros [= <- <-]. exists s. cbn.
  split; [reflexivity|]. split; [reflexivity|]. split; [|exact Hd].
  rewrite detail_of_text in Hd.
  destruct (sourceLocation _) as [loc|]; cbn.
  - destruct (sink _); [discriminate|]. now injection Hd as <- _.
  - now injection Hd as <- _.
Qed.

End Unfolding.

(** ** The message and its length *)

Lemma located_message_longer (s file : string) (line : Z) :
  (String.length s < String.length (formattedMessage s (Some (file, line))))%nat.
Proof.
  cbn [formattedMessage]. rewrite !length_append. cbn [String.length]. lia.
Qed.

Lemma located_message_differs (s file : string) (line : Z) :
  formattedMessage s (Some (file, line)) <> s.
Proof.
  intros H. pose proof (located_message_longer s file line) as Hlt.
  rewrite H in Hlt. lia.
Qed.


(** ** The error annotator *)

(** C1, as the code has it: for every text [m], when the provider reports an
    active trace with frame [(file, line)] and the logging call returns, the
    construction returns an object whose text form is exactly
    ["Error occurred in python script: [" + file + "] at line number [" + line + "]: " + m]:
    the label is "python script", not "script". *)
Theorem C1_text_with_active_trace
    (sink : log_record -> option exn) (sys : sys_module) (m : string)
    (error_detail : option sys_module) (l : list log_record)
    (file : string) (line : Z) :
  sourceLocation (default sys error_detail) = Some (file, line) ->
  sink (ERROR, formattedMessage m (Some (file, line))) = None ->
  exists e l',
    CustomException_init sink sys (VStr m) error_detail l = inr (e, l') /\
    CustomException_str e =
      "Error occurred in python script: [" +:+ file +:+ "] at line number ["
        +:+ pretty line +:+ "]: " +:+ m.
Proof.
  intros Hloc Hsink. rewrite init_unfold. cbn [str].
  rewrite detail_of_text, Hloc, Hsink. cbn.
  eexists _, _. split; reflexivity.
Qed.

Lemma C1_text_with_active_trace_witness :
  exists e l',
    CustomException_init accepting no_trace (VStr "boom")
      (Some (trace_at "a.txt" 42)) [] = inr (e, l') /\
    CustomException_str e =
      "Error occurred in python script: [" +:+ "a.txt" +:+ "] at line number ["
        +:+ pretty 42%Z +:+ "]: " +:+ "boom".
Proof.
  apply (C1_text_with_active_trace accepting no_trace "boom"
           (Some (trace_at "a.txt" 42)) [] "a.txt" 42); reflexivity.
Defined.

(** C1 as stated fails: at [m = "boom"], frame [("a.txt", 42)], the text form
    carries the label "python script" and so is not the claimed string. *)
Lemma C1_label_is_python_script :
  text_of (CustomException_init accepting no_trace (VStr "boom")
             (Some (trace_at "a.txt" 42)) [])
    = Some "Error occurred in python script: [a.txt] at line number [42]: boom"
  /\ text_of (CustomException_init accepting no_trace (VStr "boom")
                (Some (trace_at "a.txt" 42)) [])
     <> Some ("Error occurred in script: [" +:+ "a.txt" +:+ "] at line number ["
                +:+ "42" +:+ "]: " +:+ "boom").
Proof.
  split; vm_compute; [reflexivity | discriminate].
Qed.

(** C2: for every text [m], when the provider reports that no trace is
    active, the construction returns an object whose text form is exactly
    [m]; the sink is not consulted and receives nothing. *)
Theorem C2_text_without_trace
    (sink : log_record -> option exn) (sys : sys_module) (m : string)
    (error_detail : option sys_module) (l : list log_record) :
  sourceLocation (default sys error_detail) = None ->
  exists e,
    CustomException_init sink sys (VStr m) error_detail l = inr (e, l) /\
    CustomException_str e = m.
Proof.
  intros Hloc. rewrite init_unfold. cbn [str].
  rewrite detail_of_text, Hloc. cbn.
  eexists. split; reflexivity.
Qed.

Lemma C2_text_without_trace_witness :
  sourceLocation (default no_trace None) = None /\
  exists e,
    CustomException_init broken no_trace (VStr "disk full") None [] = inr (e, []) /\
    CustomException_str e = "disk full".
Proof.
  split; [reflexivity|].
  apply (C2_text_without_trace broken no_trace "disk full" None []); reflexivity.
Defined.

(** C3, as the code has it: a construction that returns has handed the sink
    exactly one record, of severity error and with the formatted message as
    its text, when a trace is active; it has handed the sink nothing when no
    trace is active. *)
Theorem C3_records_emitted
    (sink : log_record -> option exn) (sys : sys_module) (v : value)
    (error_detail : option sys_module) (l l' : list log_record)
    (e : CustomException) :
  CustomException_init sink sys v error_detail l = inr (e, l') ->
  l' = match sourceLocation (default sys error_detail) with
       | Some _ => (l ++ [(ERROR, error_message e)])%list
       | None => l
       end.
Proof.
  intros Hrun. destruct (init_returns _ _ _ _ _ _ _ Hrun) as (s & _ & _ & Hmsg & Hd).
  rewrite detail_of_text in Hd. rewrite Hmsg.
  destruct (sourceLocation _) as [loc|].
  - destruct (sink _); [discriminate|]. now injection Hd as _ <-.
  - now injection Hd as _ <-.
Qed.

Lemma C3_records_emitted_witness :
  [(ERROR, "Error occurred in python script: [a.txt] at line number [42]: boom")]
  = match sourceLocation (default no_trace (Some (trace_at "a.txt" 42))) with
    | Some _ =>
        ([] ++ [(ERROR,
                 error_message
                   {| args := [VStr "boom"];
                      error_message :=
                        "Error occurred in python script: [a.txt] at line number [42]: boom" |})])%list
    | None => []
    end.
Proof.
  apply (C3_records_emitted accepting no_trace (VStr "boom")
           (Some (trace_at "a.txt" 42)) []).
  vm_compute. reflexivity.
Defined.

(** C3 as stated fails: with no active trace the call returns and the sink
    has received no record at all. *)
Lemma C3_no_record_without_trace :
  CustomException_init accepting no_trace (VStr "boom") None []
  = inr ({| args := [VStr "boom"]; error_message := "boom" |}, []).
Proof. vm_compute. reflexivity. Qed.

(** C4, as the code has it: the logging call is not guarded.  When a trace is
    active and the sink raises on the formatted message, that exception
    leaves the construction and no object is returned. *)
Theorem C4_sink_failure_propagates
    (sink : log_record -> option exn) (sys : sys_module) (v : value)
    (s : string) (error_detail : option sys_module) (l : list log_record)
    (loc : string * Z) (ex : exn) :
  str v = inr s ->
  sourceLocation (default sys error_detail) = Some loc ->
  sink (ERROR, formattedMessage s (Some loc)) = Some ex ->
  CustomException_init sink sys v error_detail l = inl ex.
Proof.
  intros Hstr Hloc Hsink.
  rewrite init_unfold, Hstr, detail_of_text, Hloc, Hsink. reflexivity.
Qed.

Lemma C4_sink_failure_propagates_witness :
  CustomException_init broken no_trace (VInt 7) (Some (trace_at "a.txt" 42)) []
  = inl (Raised "OSError").
Proof.
  apply (C4_sink_failure_propagates broken no_trace (VInt 7) "7"
           (Some (trace_at "a.txt" 42)) [] ("a.txt", 42) (Raised "OSError"));
    reflexivity.
Defined.

(** C4 as stated fails: with a sink that raises and an active trace, the
    construction ends in the sink's exception instead of returning. *)
Lemma C4_broken_sink_aborts :
  CustomException_init broken no_trace (VStr "boom") (Some (trace_at "a.txt" 42)) []
  = inl (Raised "OSError").
Proof. vm_compute. reflexivity. Qed.




(** C6: two constructions from the same input under the same trace state
    return the same formatted message, whatever the sink has received before
    and whichever sink is installed. *)
Theorem C6_same_inputs_same_message
    (sink1 sink2 : log_record -> option exn) (sys : sys_module) (v : value)
    (error_detail : option sys_module) (l1 l2 l1' l2' : list log_record)
    (e1 e2 : CustomException) :
  CustomException_init sink1 sys v error_detail l1 = inr (e1, l1') ->
  CustomException_init sink2 sys v error_detail l2 = inr (e2, l2') ->
  error_message e1 = error_message e2.
Proof.
  intros H1 H2.
  destruct (init_returns _ _ _ _ _ _ _ H1) as (s1 & Hs1 & _ & Hm1 & _).
  destruct (init_returns _ _ _ _ _ _ _ H2) as (s2 & Hs2 & _ & Hm2 & _).
  rewrite Hs1 in Hs2. injection Hs2 as <-. now rewrite Hm1, Hm2.
Qed.

Lemma C6_same_inputs_same_message_witness :
  exists e1 l1 e2 l2,
    CustomException_init accepting (trace_at "job.py" 8) (VStr "x") None [] = inr (e1, l1) /\
    CustomException_init accepting (trace_at "job.py" 8) (VStr "x") None l1 = inr (e2, l2) /\
    error_message e1 = error_message e2.
Proof.
  eexists _, _, _, _. split; [vm_compute; reflexivity|].
  split; [vm_compute; reflexivity|].
  apply (C6_same_inputs_same_message accepting accepting (trace_at "job.py" 8)
           (VStr "x") None []
           [(ERROR, "Error occurred in python script: [job.py] at line number [8]: x")]
           [(ERROR, "Error occurred in python script: [job.py] at line number [8]: x")]
           [(ERROR, "Error occurred in python script: [job.py] at line number [8]: x");
            (ERROR, "Error occurred in python script: [job.py] at line number [8]: x")]);
    vm_compute; reflexivity.
Defined.

(** C7: the text form of a returned object is the value
    [error_message_detail] computed for it during construction. *)
Theorem C7_text_form_is_computed_message
    (sink : log_record -> option exn) (sys : sys_module) (v : value)
    (error_detail : option sys_module) (l l' : list log_record)
    (e : CustomException) :
  CustomException_init sink sys v error_detail l = inr (e, l') ->
  exists s,
    str v = inr s /\
    error_message_detail sink (VStr s) (default sys error_detail) l
      = inr (CustomException_str e, l').
Proof.
  intros Hrun. destruct (init_returns _ _ _ _ _ _ _ Hrun) as (s & Hs & _ & _ & Hd).
  exists s. split; [exact Hs | exact Hd].
Qed.

Lemma C7_text_form_is_computed_message_witness :
  exists s,
    str (VBool true) = inr s /\
    error_message_detail accepting (VStr s)
      (default no_trace (Some (trace_at "etl.py" 77))) []
    = inr (CustomException_str
             {| args := [VStr "True"];
                error_message :=
                  "Error occurred in python script: [etl.py] at line number [77]: True" |},
           [(ERROR, "Error occurred in python script: [etl.py] at line number [77]: True")]).
Proof.
  apply (C7_text_form_is_computed_message accepting no_trace (VBool true)
           (Some (trace_at "etl.py" 77)) []).
  vm_compute. reflexivity.
Defined.

(** C9: when the active trace's file path is the empty text, the message is
    the same template with nothing between the first pair of brackets. *)
Theorem C9_empty_path_embedded
    (sink : log_record -> option exn) (sys : sys_module) (m : string)
    (error_detail : option sys_module) (l : list log_record) (line : Z) :
  sourceLocation (default sys error_detail) = Some ("", line) ->
  sink (ERROR, formattedMessage m (Some ("", line))) = None ->
  exists e l',
    CustomException_init sink sys (VStr m) error_detail l = inr (e, l') /\
    error_message e = formattedMessage m (Some ("", line)) /\
    error_message e =
      "Error occurred in python script: [] at line number [" +:+ pretty line
        +:+ "]: " +:+ m.
Proof.
  intros Hloc Hsink. rewrite init_unfold. cbn [str].
  rewrite detail_of_text, Hloc, Hsink.
  eexists _, _. split; [reflexivity|]. split; reflexivity.
Qed.

Lemma C9_empty_path_embedded_witness :
  exists e l',
    CustomException_init accepting no_trace (VStr "boom") (Some (trace_at "" 5)) []
      = inr (e, l') /\
    error_message e = formattedMessage "boom" (Some ("", 5)) /\
    error_message e =
      "Error occurred in python script: [] at line number [" +:+ pretty 5%Z
        +:+ "]: " +:+ "boom".
Proof.
  apply (C9_empty_path_embedded accepting no_trace "boom"
           (Some (trace_at "" 5)) [] 5); reflexivity.
Defined.

(** C10: the base class receives the plain text [str(v)], so the argument
    tuple of a returned object holds that text while its text form is the
    formatted message; with an active trace the two differ. *)
Theorem C10_base_args_hold_plain_text
    (sink : log_record -> option exn) (sys : sys_module) (v : value)
    (error_detail : option sys_module) (l l' : list log_record)
    (e : CustomException) :
  CustomException_init sink sys v error_detail l = inr (e, l') ->
  exists s,
    str v = inr s /\
    args e = [VStr s] /\
    CustomException_str e
      = formattedMessage s (sourceLocation (default sys error_detail)) /\
    (sourceLocation (default sys error_detail) <> None ->
     CustomException_str e <> s).
Proof.
  intros Hrun. destruct (init_returns _ _ _ _ _ _ _ Hrun) as (s & Hs & Ha & Hmsg & _).
  exists s. split; [exact Hs|]. split; [exact Ha|]. split; [exact Hmsg|].
  unfold CustomException_str. rewrite Hmsg.
  destruct (sourceLocation _) as [[file line]|]; [|congruence].
  intros _. apply located_message_differs.
Qed.

Lemma C10_base_args_hold_plain_text_witness :
  exists s,
    str (VInt 404) = inr s /\
    args {| args := [VStr "404"];
            error_message :=
              "Error occurred in python script: [api.py] at line number [12]: 404" |}
      = [VStr s] /\
    CustomException_str
      {| args := [VStr "404"];
         error_message :=
           "Error occurred in python script: [api.py] at line number [12]: 404" |}
      = formattedMessage s (sourceLocation (default (trace_at "api.py" 12) None)) /\
    (sourceLocation (default (trace_at "api.py" 12) None) <> None ->
     CustomException_str
       {| args := [VStr "404"];
          error_message :=
            "Error occurred in python script: [api.py] at line number [12]: 404" |}
     <> s).
Proof.
  apply (C10_base_args_hold_plain_text accepting (trace_at "api.py" 12) (VInt 404)
           None []
           [(ERROR, "Error occurred in python script: [api.py] at line number [12]: 404")]).
  vm_compute. reflexivity.
Defined.

(** ** The configuration constants *)

Import constants.

Example decimal_int_samples :
  decimal_int "8080" = Some 8080%Z /\ decimal_int "-5" = Some (-5)%Z /\
  decimal_int "+17" = Some 17%Z /\ decimal_int "80a" = None /\
  decimal_int "" = None /\ decimal_int "-" = None.
Proof. vm_compute. repeat split. Qed.

Example import_defaults :
  import_constants (dotenv_adds ∅) decimal_int ∅
  = inr {| MONGODB_URL := VNone; AWS_ACCESS_KEY_ID := VNone;
           AWS_SECRET_ACCESS_KEY := VNone; APP_HOST := VStr "0.0.0.0";
           APP_PORT := 5000 |}.
Proof. vm_compute. reflexivity. Qed.

Example import_from_dotenv :
  import_constants (dotenv_adds {[ "APP_PORT" := "8080"; "APP_HOST" := "::1" ]})
    decimal_int {[ "APP_HOST" := "127.0.0.1"; "MONGODB_URLX" := "mongodb://db" ]}
  = inr {| MONGODB_URL := VStr "mongodb://db"; AWS_ACCESS_KEY_ID := VNone;
           AWS_SECRET_ACCESS_KEY := VNone; APP_HOST := VStr "127.0.0.1";
           APP_PORT := 8080 |}.
Proof. vm_compute. reflexivity. Qed.

Lemma getenv_unset (environ : gmap string string) (key : string) (d : value) :
  environ !! key = None -> os_getenv environ key d = d.
Proof. unfold os_getenv. now intros ->. Qed.

Lemma getenv_set (environ : gmap string string) (key s : string) (d : value) :
  environ !! key = Some s -> os_getenv environ key d = VStr s.
Proof. unfold os_getenv. now intros ->. Qed.

(** C8: once [load_dotenv] has returned, [MONGODB_URLX] is read with no
    default: the constant is the variable's text when it is set, and when it
    is absent the constant is [None] and nothing is raised.  [APP_HOST] is
    the variable's text when it is set and ["0.0.0.0"] when it is absent.
    [APP_PORT] is [int] of the variable, [5000] when it is absent, and the
    import raises [ValueError] when the variable holds a text [int] rejects.
    Nothing else makes the import raise. *)
Theorem C8_configuration_loader
    (load_dotenv : gmap string string -> gmap string string)
    (int_of_str : string -> option Z) (environ : gmap string string) :
  (forall s, load_dotenv environ !! "APP_PORT" = Some s -> int_of_str s = None ->
     import_constants load_dotenv int_of_str environ = inl ValueError) /\
  (forall ex, import_constants load_dotenv int_of_str environ = inl ex ->
     ex = ValueError /\
     exists s, load_dotenv environ !! "APP_PORT" = Some s /\ int_of_str s = None) /\
  (load_dotenv environ !! "APP_PORT" = None ->
     exists cfg, import_constants load_dotenv int_of_str environ = inr cfg) /\
  (forall s p, load_dotenv environ !! "APP_PORT" = Some s -> int_of_str s = Some p ->
     exists cfg, import_constants load_dotenv int_of_str environ = inr cfg) /\
  (forall cfg, import_constants load_dotenv int_of_str environ = inr cfg ->
     (load_dotenv environ !! "MONGODB_URLX" = None -> MONGODB_URL cfg = VNone) /\
     (forall s, load_dotenv environ !! "MONGODB_URLX" = Some s ->
        MONGODB_URL cfg = VStr s) /\
     (load_dotenv environ !! "APP_HOST" = None -> APP_HOST cfg = VStr "0.0.0.0") /\
     (forall s, load_dotenv environ !! "APP_HOST" = Some s ->
        APP_HOST cfg = VStr s) /\
     (load_dotenv environ !! "APP_PORT" = None -> APP_PORT cfg = 5000%Z) /\
     (forall s, load_dotenv environ !! "APP_PORT" = Some s ->
        int_of_str s = Some (APP_PORT cfg))).
Proof.
  unfold import_constants.
  destruct (load_dotenv environ !! "APP_PORT") as [p|] eqn:Hport.
  - rewrite (getenv_set _ _ _ _ Hport). cbn [int].
    destruct (int_of_str p) as [z|] eqn:Hint.
    + split; [intros s [= <-]; congruence|].
      split; [discriminate|]. split; [discriminate|].
      split; [intros s q _ _; eexists; reflexivity|].
      intros cfg [= <-]. cbn.
      split; [apply getenv_unset|]. split; [intros s; apply getenv_set|].
      split; [apply getenv_unset|]. split; [intros s; apply getenv_set|].
      split; [discriminate|]. intros s [= <-]. exact Hint.
    + split; [reflexivity|].
      split; [intros ex [= <-]; split; [reflexivity | exists p; split; [reflexivity|exact Hint]]|].
      split; [discriminate|].
      split; [intros s q [= <-]; congruence|]. discriminate.
  - rewrite (getenv_unset _ _ _ Hport). cbn [int].
    split; [discriminate|]. split; [discriminate|].
    split; [intros _; eexists; reflexivity|].
    split; [discriminate|].
    intros cfg [= <-]. cbn.
    split; [apply getenv_unset|]. split; [intros s; apply getenv_set|].
    split; [apply getenv_unset|]. split; [intros s; apply getenv_set|].
    split; [reflexivity|]. discriminate.
Qed.

Lemma C8_configuration_loader_witness :
  import_constants (dotenv_adds {[ "APP_PORT" := "80a" ]}) decimal_int
    {[ "APP_HOST" := "localhost" ]}
  = inl ValueError /\
  exists cfg,
    import_constants
      (dotenv_adds {[ "APP_PORT" := "8080"; "MONGODB_URLX" := "mongodb://db" ]})
      decimal_int {[ "APP_HOST" := "localhost" ]} = inr cfg /\
    MONGODB_URL cfg = VStr "mongodb://db" /\
    APP_HOST cfg = VStr "localhost" /\
    decimal_int "8080" = Some (APP_PORT cfg).
Proof.
  split.
  - apply (proj1 (C8_configuration_loader (dotenv_adds {[ "APP_PORT" := "80a" ]})
                    decimal_int {[ "APP_HOST" := "localhost" ]}) "80a");
      vm_compute; reflexivity.
  - destruct (C8_configuration_loader
                (dotenv_adds {[ "APP_PORT" := "8080"; "MONGODB_URLX" := "mongodb://db" ]})
                decimal_int {[ "APP_HOST" := "localhost" ]})
      as (_ & _ & _ & Hruns & Hcfg).
    destruct (Hruns "8080" 8080%Z) as [cfg Hrun]; [vm_compute; reflexivity ..|].
    exists cfg. split; [exact Hrun|].
    destruct (Hcfg cfg Hrun) as (_ & Hm & _ & Hh & _ & Hp).
    split; [apply Hm; vm_compute; reflexivity|].
    split; [apply Hh; vm_compute; reflexivity|].
    apply Hp. vm_compute. reflexivity.
Defined.

(** ** Further properties of the configuration constants *)

(** X1: the import reads five variables and nothing else.  Two environments
    that agree on them after [load_dotenv] give the same outcome; a variable
    named [MONGODB_URL], in particular, has no effect on the constant of that
    name, which is read from [MONGODB_URLX]. *)
Theorem X1_import_reads_five_variables
    (load_dotenv : gmap string string -> gmap string string)
    (int_of_str : string -> option Z) (environ1 environ2 : gmap string string) :
  load_dotenv environ1 !! "MONGODB_URLX" = load_dotenv environ2 !! "MONGODB_URLX" ->
  load_dotenv environ1 !! "AWS_ACCESS_KEY_ID"
    = load_dotenv environ2 !! "AWS_ACCESS_KEY_ID" ->
  load_dotenv environ1 !! "AWS_SECRET_ACCESS_KEY"
    = load_dotenv environ2 !! "AWS_SECRET_ACCESS_KEY" ->
  load_dotenv environ1 !! "APP_HOST" = load_dotenv environ2 !! "APP_HOST" ->
  load_dotenv environ1 !! "APP_PORT" = load_dotenv environ2 !! "APP_PORT" ->
  import_constants load_dotenv int_of_str environ1
  = import_constants load_dotenv int_of_str environ2.
Proof.
  intros Hm Hk Hs Hh Hp. unfold import_constants, os_getenv.
  now rewrite Hm, Hk, Hs, Hh, Hp.
Qed.

Lemma X1_import_reads_five_variables_witness :
  import_constants (dotenv_adds ∅) decimal_int {[ "MONGODB_URL" := "mongodb://db" ]}
  = import_constants (dotenv_adds ∅) decimal_int ∅.
Proof.
  apply (X1_import_reads_five_variables (dotenv_adds ∅) decimal_int
           {[ "MONGODB_URL" := "mongodb://db" ]} ∅);
    vm_compute; reflexivity.
Defined.

(** X2: in a successful import every text constant is the variable's value
    as it stands, the empty text included: [None] (for the database URL and
    the two AWS keys) and ["0.0.0.0"] (for the host) stand in only for a
    variable that is absent, so the host is always a text. *)
Theorem X2_text_constants_pass_through
    (load_dotenv : gmap string string -> gmap string string)
    (int_of_str : string -> option Z) (environ : gmap string string)
    (cfg : config) :
  import_constants load_dotenv int_of_str environ = inr cfg ->
  MONGODB_URL cfg
    = from_option VStr VNone (load_dotenv environ !! "MONGODB_URLX") /\
  AWS_ACCESS_KEY_ID cfg
    = from_option VStr VNone (load_dotenv environ !! "AWS_ACCESS_KEY_ID") /\
  AWS_SECRET_ACCESS_KEY cfg
    = from_option VStr VNone (load_dotenv environ !! "AWS_SECRET_ACCESS_KEY") /\
  APP_HOST cfg = VStr (default "0.0.0.0" (load_dotenv environ !! "APP_HOST")).
Proof.
  unfold import_constants.
  destruct (int _ _) as [ex|port]; [discriminate|]. intros [= <-]. cbn.
  unfold os_getenv.
  repeat split; destruct (load_dotenv environ !! _); reflexivity.
Qed.

Lemma X2_text_constants_pass_through_witness :
  VStr "" = from_option VStr VNone
              (dotenv_adds ∅ {[ "MONGODB_URLX" := ""; "APP_HOST" := "" ]} !! "MONGODB_URLX") /\
  VNone = from_option VStr VNone
            (dotenv_adds ∅ {[ "MONGODB_URLX" := ""; "APP_HOST" := "" ]} !! "AWS_ACCESS_KEY_ID") /\
  VNone = from_option VStr VNone
            (dotenv_adds ∅ {[ "MONGODB_URLX" := ""; "APP_HOST" := "" ]} !! "AWS_SECRET_ACCESS_KEY") /\
  VStr "" = VStr (default "0.0.0.0"
                    (dotenv_adds ∅ {[ "MONGODB_URLX" := ""; "APP_HOST" := "" ]} !! "APP_HOST")).
Proof.
  apply (X2_text_constants_pass_through (dotenv_adds ∅) decimal_int
           {[ "MONGODB_URLX" := ""; "APP_HOST" := "" ]}
           {| MONGODB_URL := VStr ""; AWS_ACCESS_KEY_ID := VNone;
              AWS_SECRET_ACCESS_KEY := VNone; APP_HOST := VStr "";
              APP_PORT := 5000 |}).
  vm_compute. reflexivity.
Defined.

(** ** Further properties of the error annotator *)

Lemma append_cancel_l (p a b : string) : p +:+ a = p +:+ b -> a = b.
Proof.
  induction p as [|c p IH]; [trivial|].
  change (String c p +:+ a) with (String c (p +:+ a)).
  change (String c p +:+ b) with (String c (p +:+ b)).
  intros [= H]. auto.
Qed.

Lemma append_cancel_r (a b c : string) : a +:+ c = b +:+ c -> a = b.
Proof.
  revert b. induction a as [|x a IH]; intros [|y b] H.
  - reflexivity.
  - apply (f_equal String.length) in H. rewrite !length_append in H.
    cbn [String.length] in H. lia.
  - apply (f_equal String.length) in H. rewrite !length_append in H.
    cbn [String.length] in H. lia.
  - change (String x a +:+ c) with (String x (a +:+ c)) in H.
    change (String y b +:+ c) with (String y (b +:+ c)) in H.
    injection H as -> H. f_equal. auto.
Qed.

Lemma formattedMessage_inj_text (s1 s2 : string) (loc : option (string * Z)) :
  formattedMessage s1 loc = formattedMessage s2 loc -> s1 = s2.
Proof.
  destruct loc as [[file line]|]; cbn [formattedMessage]; [|trivial].
  intros H. do 5 apply append_cancel_l in H. exact H.
Qed.

(** X3: when [str] of the value raises, the same exception leaves both
    [error_message_detail] and the construction, with or without an active
    trace and whatever the sink: the sink is not reached. *)
Theorem X3_str_failure_propagates
    (sink : log_record -> option exn) (sys : sys_module) (v : value)
    (error_detail : option sys_module) (l : list log_record) (ex : exn) :
  str v = inl ex ->
  error_message_detail sink v (default sys error_detail) l = inl ex /\
  CustomException_init sink sys v error_detail l = inl ex.
Proof.
  intros Hstr. split.
  - unfold error_message_detail.
    destruct (exc_info _) as [[t x] [tb|]]; unfold bind, lift; now rewrite Hstr.
  - rewrite init_unfold, Hstr. reflexivity.
Qed.

Lemma X3_str_failure_propagates_witness :
  error_message_detail broken (VObj (inl (Raised "RecursionError")))
    (default (trace_at "a.py" 1) None) [] = inl (Raised "RecursionError") /\
  CustomException_init broken (trace_at "a.py" 1)
    (VObj (inl (Raised "RecursionError"))) None [] = inl (Raised "RecursionError").
Proof.
  apply (X3_str_failure_propagates broken (trace_at "a.py" 1)
           (VObj (inl (Raised "RecursionError"))) None [] (Raised "RecursionError")).
  reflexivity.
Defined.

(** X4: under one trace state the text form determines the original text:
    two constructions whose objects read the same were given values with
    the same [str], and their base argument tuples are equal. *)
Theorem X4_text_form_determines_original
    (sink1 sink2 : log_record -> option exn) (sys : sys_module)
    (v1 v2 : value) (error_detail : option sys_module)
    (l1 l2 l1' l2' : list log_record) (e1 e2 : CustomException) :
  CustomException_init sink1 sys v1 error_detail l1 = inr (e1, l1') ->
  CustomException_init sink2 sys v2 error_detail l2 = inr (e2, l2') ->
  CustomException_str e1 = CustomException_str e2 ->
  str v1 = str v2 /\ args e1 = args e2.
Proof.
  intros H1 H2 Heq. unfold CustomException_str in Heq.
  destruct (init_returns _ _ _ _ _ _ _ H1) as (s1 & Hs1 & Ha1 & Hm1 & _).
  destruct (init_returns _ _ _ _ _ _ _ H2) as (s2 & Hs2 & Ha2 & Hm2 & _).
  rewrite Hm1, Hm2 in Heq. apply formattedMessage_inj_text in Heq as ->.
  split; congruence.
Qed.

Lemma X4_text_form_determines_original_witness :
  str (VInt 7) = str (VStr "7") /\
  args {| args := [VStr "7"];
          error_message := "Error occurred in python script: [q.py] at line number [2]: 7" |}
  = args {| args := [VStr "7"];
            error_message := "Error occurred in python script: [q.py] at line number [2]: 7" |}.
Proof.
  apply (X4_text_form_determines_original accepting accepting (trace_at "q.py" 2)
           (VInt 7) (VStr "7") None [] []
           [(ERROR, "Error occurred in python script: [q.py] at line number [2]: 7")]
           [(ERROR, "Error occurred in python script: [q.py] at line number [2]: 7")]);
    vm_compute; reflexivity.
Defined.

(** X5: for one value, the text form tells frames apart: two constructions
    under active traces that read the same had the same line if they had the
    same file, and the same file if they had the same line. *)
Theorem X5_text_form_tells_frames_apart
    (sink1 sink2 : log_record -> option exn) (sys : sys_module) (v : value)
    (ed1 ed2 : option sys_module) (l1 l2 l1' l2' : list log_record)
    (e1 e2 : CustomException) (file1 file2 : string) (line1 line2 : Z) :
  sourceLocation (default sys ed1) = Some (file1, line1) ->
  sourceLocation (default sys ed2) = Some (file2, line2) ->
  CustomException_init sink1 sys v ed1 l1 = inr (e1, l1') ->
  CustomException_init sink2 sys v ed2 l2 = inr (e2, l2') ->
  CustomException_str e1 = CustomException_str e2 ->
  (file1 = file2 -> line1 = line2) /\ (line1 = line2 -> file1 = file2).
Proof.
  intros Hl1 Hl2 H1 H2 Heq. unfold CustomException_str in Heq.
  destruct (init_returns _ _ _ _ _ _ _ H1) as (s1 & Hs1 & _ & Hm1 & _).
  destruct (init_returns _ _ _ _ _ _ _ H2) as (s2 & Hs2 & _ & Hm2 & _).
  rewrite Hs1 in Hs2. injection Hs2 as <-.
  rewrite Hm1, Hm2, Hl1, Hl2 in Heq. cbn [formattedMessage] in Heq.
  apply append_cancel_l in Heq. split.
  - intros <-. do 2 apply append_cancel_l in Heq.
    apply append_cancel_r in Heq. exact (pretty_Z_inj _ _ Heq).
  - intros <-. apply append_cancel_r in Heq. exact Heq.
Qed.

Lemma X5_text_form_tells_frames_apart_witness :
  ("r.py" = "r.py" -> 9%Z = 9%Z) /\ (9%Z = 9%Z -> "r.py" = "r.py").
Proof.
  apply (X5_text_form_tells_frames_apart accepting accepting no_trace (VStr "x")
           (Some (trace_at "r.py" 9)) (Some (trace_at "r.py" 9)) [] []
           [(ERROR, "Error occurred in python script: [r.py] at line number [9]: x")]
           [(ERROR, "Error occurred in python script: [r.py] at line number [9]: x")]
           {| args := [VStr "x"];
              error_message := "Error occurred in python script: [r.py] at line number [9]: x" |}
           {| args := [VStr "x"];
              error_message := "Error occurred in python script: [r.py] at line number [9]: x" |}
           "r.py" "r.py" 9 9);
    vm_compute; reflexivity.
Defined.

(** X6: wrapping an object that is already a [CustomException] re-reads it
    as text and does not unwrap it.  The outer object's base arguments hold
    the inner formatted message, its text form is that message formatted
    again for the outer trace state (unchanged when no trace is active), and
    when the inner object was built under an active trace the inner base
    arguments are not carried over. *)
Theorem X6_rewrapping_restringifies
    (sink0 sink : log_record -> option exn) (sys0 sys : sys_module) (v : value)
    (ed0 ed : option sys_module) (l0 l0' l l' : list log_record)
    (inner outer : CustomException) :
  CustomException_init sink0 sys0 v ed0 l0 = inr (inner, l0') ->
  CustomException_init sink sys (CustomException_value inner) ed l
    = inr (outer, l') ->
  args outer = [VStr (CustomException_str inner)] /\
  CustomException_str outer
    = formattedMessage (CustomException_str inner)
        (sourceLocation (default sys ed)) /\
  (sourceLocation (default sys ed) = None ->
   CustomException_str outer = CustomException_str inner) /\
  (sourceLocation (default sys0 ed0) <> None -> args outer <> args inner).
Proof.
  intros Hin Hout.
  destruct (init_returns _ _ _ _ _ _ _ Hin) as (s & _ & Ha & Hm & _).
  destruct (init_returns _ _ _ _ _ _ _ Hout) as (t & Ht & Hb & Hn & _).
  cbn in Ht. injection Ht as <-. unfold CustomException_str in *.
  split; [exact Hb|]. split; [exact Hn|]. split.
  - intros Hnone. now rewrite Hn, Hnone.
  - rewrite Ha, Hb, Hm. destruct (sourceLocation (default sys0 ed0)) as [[f n]|];
      [|congruence].
    intros _ [= H]. now apply located_message_differs in H.
Qed.

Lemma X6_rewrapping_restringifies_witness :
  exists outer l',
    CustomException_init accepting (trace_at "b.py" 20)
      (CustomException_value
         {| args := [VStr "x"];
            error_message := "Error occurred in python script: [a.py] at line number [3]: x" |})
      None
      [(ERROR, "Error occurred in python script: [a.py] at line number [3]: x")]
    = inr (outer, l') /\
    args outer
    = [VStr "Error occurred in python script: [a.py] at line number [3]: x"] /\
    CustomException_str outer
    = "Error occurred in python script: [b.py] at line number [20]: Error occurred in python script: [a.py] at line number [3]: x".
Proof.
  eexists _, _. split; [vm_compute; reflexivity|].
  pose proof (X6_rewrapping_restringifies accepting accepting
                (trace_at "a.py" 3) (trace_at "b.py" 20) (VStr "x") None None
                [] [(ERROR, "Error occurred in python script: [a.py] at line number [3]: x")]
                [(ERROR, "Error occurred in python script: [a.py] at line number [3]: x")]
                _ _ _ eq_refl eq_refl) as (Ha & Hs & _).
  split; [exact Ha | exact Hs].
Defined.

(** X7: the sink sees records in call order.  After two constructions under
    active traces, the second starting from the records the first left, the
    sink holds the earlier records followed by the first message and then
    the second. *)
Theorem X7_records_in_call_order
    (sink : log_record -> option exn) (sys : sys_module) (v1 v2 : value)
    (ed1 ed2 : option sys_module) (l l1 l2 : list log_record)
    (e1 e2 : CustomException) :
  sourceLocation (default sys ed1) <> None ->
  sourceLocation (default sys ed2) <> None ->
  CustomException_init sink sys v1 ed1 l = inr (e1, l1) ->
  CustomException_init sink sys v2 ed2 l1 = inr (e2, l2) ->
  l2 = (l ++ [(ERROR, CustomException_str e1); (ERROR, CustomException_str e2)])%list.
Proof.
  intros Ht1 Ht2 H1 H2. unfold CustomException_str.
  destruct (init_returns _ _ _ _ _ _ _ H1) as (s1 & _ & _ & Hm1 & Hd1).
  destruct (init_returns _ _ _ _ _ _ _ H2) as (s2 & _ & _ & Hm2 & Hd2).
  rewrite detail_of_text in Hd1, Hd2. rewrite Hm1, Hm2.
  destruct (sourceLocation (default sys ed1)) as [loc1|]; [|congruence].
  destruct (sourceLocation (default sys ed2)) as [loc2|]; [|congruence].
  destruct (sink (ERROR, formattedMessage s1 (Some loc1))); [discriminate|].
  destruct (sink (ERROR, formattedMessage s2 (Some loc2))); [discriminate|].
  injection Hd1 as _ <-. injection Hd2 as _ <-.
  now rewrite <- app_assoc.
Qed.

Lemma X7_records_in_call_order_witness :
  [(INFO, "started");
   (ERROR, "Error occurred in python script: [a.py] at line number [3]: x");
   (ERROR, "Error occurred in python script: [a.py] at line number [3]: y")]
  = ([(INFO, "started")] ++
     [(ERROR, CustomException_str
                {| args := [VStr "x"];
                   error_message :=
                     "Error occurred in python script: [a.py] at line number [3]: x" |});
      (ERROR, CustomException_str
                {| args := [VStr "y"];
                   error_message :=
                     "Error occurred in python script: [a.py] at line number [3]: y" |})])%list.
Proof.
  apply (X7_records_in_call_order accepting (trace_at "a.py" 3)
           (VStr "x") (VStr "y") None None [(INFO, "started")]
           [(INFO, "started");
            (ERROR, "Error occurred in python script: [a.py] at line number [3]: x")]);
    try (vm_compute; reflexivity); vm_compute; discriminate.
Defined.

(** X8: the one thing a construction ever offers the sink is the record
    (error, formatted message), and only when a trace is active.  Two sinks
    that agree on that record give the same outcome, object or exception,
    and the same records. *)
Theorem X8_sink_offered_one_record
    (sink1 sink2 : log_record -> option exn) (sys : sys_module) (v : value)
    (s : string) (error_detail : option sys_module) (l : list log_record) :
  str v = inr s ->
  (sourceLocation (default sys error_detail) <> None ->
   sink1 (ERROR, formattedMessage s (sourceLocation (default sys error_detail)))
   = sink2 (ERROR, formattedMessage s (sourceLocation (default sys error_detail)))) ->
  CustomException_init sink1 sys v error_detail l
  = CustomException_init sink2 sys v error_detail l.
Proof.
  intros Hstr Hagree. rewrite !init_unfold, Hstr, !detail_of_text.
  destruct (sourceLocation (default sys error_detail)) as [loc|]; [|reflexivity].
  rewrite Hagree by discriminate. reflexivity.
Qed.

Lemma X8_sink_offered_one_record_witness :
  CustomException_init
    (fun r => if decide (r.2 = "Error occurred in python script: [a.py] at line number [3]: x")
              then None else Some (Raised "OSError"))
    (trace_at "a.py" 3) (VStr "x") None []
  = CustomException_init accepting (trace_at "a.py" 3) (VStr "x") None [].
Proof.
  apply (X8_sink_offered_one_record _ accepting (trace_at "a.py" 3) (VStr "x") "x" None []);
    [reflexivity | intros _; vm_compute; reflexivity].
Defined.
